(** * argocd-extension-metrics: the configuration package

    A shallow embedding of [internal/config/config.go]: the configuration
    schema, the four lookups ([GetApp], [GetDashBoard], [GetRow],
    [GetGraph]) and the control flow of [LoadConfigs].

    Conventions of the embedding.
    - A Go [string] is a [string]; [==] on strings is [String.eqb].
    - A Go slice is a [list] (a nil slice and an empty slice both range over
      nothing, and nothing here tells them apart).
    - A Go pointer [*T] is a [ptr T]: [None] is [nil], [Some v] points to a
      value [v].  The tree is never written after it is built, so a pointer
      is identified with what it points to.
    - Dereferencing [nil] panics; a computation that may panic has type
      [outcome A]. *)

From Stdlib Require Import List String Ascii Bool ZArith.
Import ListNotations.
Local Open Scope string_scope.

Set Implicit Arguments.

(** ** Pointers and panics *)

Inductive outcome (A : Type) : Type :=
| Ret (a : A)
| Panic.
Arguments Ret {A} a.
Arguments Panic {A}.

Definition bind {A B : Type} (c : outcome A) (k : A -> outcome B) : outcome B :=
  match c with
  | Ret a => k a
  | Panic => Panic
  end.

Notation "x <- c ;; k" := (bind c (fun x => k))
  (at level 61, c at next level, right associativity).

Definition ptr (A : Type) : Type := option A.

Definition nil_ptr {A : Type} : ptr A := None.

(** [p.f] on a pointer [p]: a runtime panic when [p] is nil. *)
Definition deref {A : Type} (p : ptr A) : outcome A :=
  match p with
  | Some v => Ret v
  | None => Panic
  end.

(** ** The schema and its lookups *)

Module Threshold.
Record t : Type := {
  Key : string;
  Name : string;
  Color : string;
  Value : string;
  Unit : string;
  QueryExpression : string
}.
End Threshold.

Module Graph.
Record t : Type := {
  Name : string;
  Title : string;
  Description : string;
  GraphType : string;
  MetricName : string;
  ColorSchemes : list string;
  Thresholds : list Threshold.t;
  QueryExpression : string;
  YAxisUnit : string;
  ValueRounding : Z
}.
End Graph.

Module Row.
Record t : Type := {
  Name : string;
  Title : string;
  Tab : string;
  Graphs : list (ptr Graph.t)
}.

(** The body of [for _, graph := range r.Graphs], ending in [return nil]. *)
Fixpoint range_Graphs (graphs : list (ptr Graph.t)) (name : string)
  : outcome (ptr Graph.t) :=
  match graphs with
  | [] => Ret nil_ptr
  | graph :: rest =>
      g <- deref graph ;;
      if Graph.Name g =? name then Ret graph else range_Graphs rest name
  end.

Definition GetGraph (r : ptr t) (name : string) : outcome (ptr Graph.t) :=
  r' <- deref r ;;
  range_Graphs (Graphs r') name.
End Row.

Module Dashboard.
Record t : Type := {
  Name : string;
  GroupKind : string;
  RefreshRate : string;
  Tabs : list string;
  Rows : list (ptr Row.t);
  ProviderType : string;
  Intervals : list string
}.

(** The body of [for _, row := range d.Rows], ending in [return nil]. *)
Fixpoint range_Rows (rows : list (ptr Row.t)) (name : string)
  : outcome (ptr Row.t) :=
  match rows with
  | [] => Ret nil_ptr
  | row :: rest =>
      r <- deref row ;;
      if Row.Name r =? name then Ret row else range_Rows rest name
  end.

Definition GetRow (d : ptr t) (name : string) : outcome (ptr Row.t) :=
  d' <- deref d ;;
  range_Rows (Rows d') name.
End Dashboard.

Module Application.
Record t : Type := {
  Name : string;
  Default : bool;
  DefaultDashboard : ptr Dashboard.t;
  Dashboards : list (ptr Dashboard.t)
}.

(** [var a Application]: every field at its zero value. *)
Definition zero : t :=
  {| Name := ""; Default := false; DefaultDashboard := nil_ptr; Dashboards := [] |}.

(** The body of [for _, dash := range a.Dashboards]; [fallback] is what
    the statement after the loop returns. *)
Fixpoint range_Dashboards (dashboards : list (ptr Dashboard.t))
    (groupKind : string) (fallback : ptr Dashboard.t)
  : outcome (ptr Dashboard.t) :=
  match dashboards with
  | [] => Ret fallback
  | dash :: rest =>
      d <- deref dash ;;
      if Dashboard.GroupKind d =? groupKind then Ret dash
      else range_Dashboards rest groupKind fallback
  end.

(** The receiver is a value, not a pointer: the call itself cannot meet a
    nil receiver. *)
Definition GetDashBoard (a : t) (groupKind : string) : outcome (ptr Dashboard.t) :=
  range_Dashboards (Dashboards a) groupKind (DefaultDashboard a).
End Application.

Module provider.
Section WithTLS.
(** [config.TLSConfig] of prometheus/common: an opaque block that this
    package only carries around. *)
Variable config_TLSConfig : Type.

Record t : Type := {
  Name : string;
  Address : string;
  Default : bool;
  TLSConfig : config_TLSConfig
}.
End WithTLS.
End provider.

Module MetricsConfigProvider.
Section WithTLS.
Variable config_TLSConfig : Type.

Record t : Type := {
  Applications : list Application.t;
  Provider : provider.t config_TLSConfig
}.

(** The body of [for _, app := range p.Applications]: [defaultApp] is the
    local variable the loop keeps overwriting; [app] is a copy of the list
    element, and [return &app] hands out the address of that copy. *)
Fixpoint range_Applications (applications : list Application.t)
    (name : string) (defaultApp : Application.t) : Application.t :=
  match applications with
  | [] => defaultApp
  | app :: rest =>
      if Application.Name app =? name then app
      else range_Applications rest name
             (if Application.Default app then app else defaultApp)
  end.

Definition GetApp (p : ptr t) (name : string) : outcome (ptr Application.t) :=
  p' <- deref p ;;
  Ret (Some (range_Applications (Applications p') name Application.zero)).
End WithTLS.
End MetricsConfigProvider.

Module O11yConfig.
Section WithTLS.
Variable config_TLSConfig : Type.

Record t : Type := {
  Prometheus : ptr (MetricsConfigProvider.t config_TLSConfig);
  Wavefront : ptr (MetricsConfigProvider.t config_TLSConfig)
}.

(** [conf := O11yConfig{}] *)
Definition zero : t := {| Prometheus := nil_ptr; Wavefront := nil_ptr |}.
End WithTLS.
End O11yConfig.

(** ** Loading

    [LoadConfigs] is glue around three libraries whose code is not part of
    this package: encoding/json, mitchellh/mapstructure and spf13/viper.
    They enter as the fields of [Libraries]; what is modelled here is what
    [LoadConfigs] itself does with them: the order of the calls, what each
    call is given, and what is returned at each exit.

    - [jsonData] (a [map[string]interface{}]) is an abstract [JSONData].
    - The decoder is created with [Result: &conf], so [Decode] writes into
      [conf]: it takes the current [conf] and gives back the updated one
      next to its error, and whatever it wrote before failing stays.
    - viper keeps its settings in a package-level singleton: an abstract
      [Viper], threaded through the calls.  [viper.Unmarshal(&conf)] too
      writes into [conf], and it is the call that reads the process
      environment, here an [Environ].
    - The logger is only told about failures and never steers the
      control flow; it is left out. *)

Definition Environ : Type := string -> option string.

Module mapstructure.
Record DecoderConfig : Type := { TagName : string }.
End mapstructure.

Section Loading.
Variable config_TLSConfig : Type.
Variables error JSONData Viper : Type.

Let Conf : Type := O11yConfig.t config_TLSConfig.

Record Libraries : Type := {
  json_Unmarshal : list Byte.byte -> error + JSONData;
  mapstructure_NewDecoder : mapstructure.DecoderConfig -> option error;
  Decoder_Decode : mapstructure.DecoderConfig -> JSONData -> Conf -> Conf * option error;
  viper_SetConfigType : string -> Viper -> Viper;
  viper_AutomaticEnv : Viper -> Viper;
  viper_SetEnvKeyReplacer : string * string -> Viper -> Viper;
  viper_ReadConfig : list Byte.byte -> Viper -> Viper * option error;
  viper_Unmarshal : Environ -> Conf -> Viper -> Conf * option error
}.

Variable L : Libraries.

(** What the call leaves behind: the two results and the viper singleton. *)
Definition LoadConfigs (environ : Environ) (viper : Viper)
    (defaultConf : list Byte.byte) : (Conf * option error) * Viper :=
  let conf := O11yConfig.zero config_TLSConfig in
  match json_Unmarshal L defaultConf with
  | inl err => ((conf, Some err), viper)
  | inr jsonData =>
      let jsonDecoderConfig := {| mapstructure.TagName := "json" |} in
      match mapstructure_NewDecoder L jsonDecoderConfig with
      | Some err => ((conf, Some err), viper)
      | None =>
          let (conf, err) := Decoder_Decode L jsonDecoderConfig jsonData conf in
          match err with
          | Some err => ((conf, Some err), viper)
          | None =>
              let viper := viper_SetConfigType L "json" viper in
              let viper := viper_AutomaticEnv L viper in
              let viper := viper_SetEnvKeyReplacer L (".", "__") viper in
              let (viper, err) := viper_ReadConfig L defaultConf viper in
              match err with
              | Some err => ((conf, Some err), viper)
              | None =>
                  let (conf, err) := viper_Unmarshal L environ conf viper in
                  match err with
                  | Some err => ((conf, Some err), viper)
                  | None => ((conf, None), viper)
                  end
              end
          end
      end
  end.

(** The two phases of [LoadConfigs], cut out of it: step 1 of the source
    (the generic parse, then the decode into the struct by json tags) and
    step 2 (viper set up, fed the same bytes, and unmarshalled into the
    [conf] that step 1 filled). *)
Definition decodeDocument (defaultConf : list Byte.byte) : Conf * option error :=
  let conf := O11yConfig.zero config_TLSConfig in
  match json_Unmarshal L defaultConf with
  | inl err => (conf, Some err)
  | inr jsonData =>
      let jsonDecoderConfig := {| mapstructure.TagName := "json" |} in
      match mapstructure_NewDecoder L jsonDecoderConfig with
      | Some err => (conf, Some err)
      | None => Decoder_Decode L jsonDecoderConfig jsonData conf
      end
  end.

Definition applyOverrides (environ : Environ) (viper : Viper)
    (defaultConf : list Byte.byte) (conf : Conf) : (Conf * option error) * Viper :=
  let viper := viper_SetConfigType L "json" viper in
  let viper := viper_AutomaticEnv L viper in
  let viper := viper_SetEnvKeyReplacer L (".", "__") viper in
  let (viper, err) := viper_ReadConfig L defaultConf viper in
  match err with
  | Some err => ((conf, Some err), viper)
  | None => (viper_Unmarshal L environ conf viper, viper)
  end.

End Loading.

(** ** What the lookups are described to return

    The definitions of this part follow the wording of the lookup
    contracts, not the loops: they are what the loops are compared with. *)

(** The entries of a pointer list that point to something, in order. *)
Definition pointees {A : Type} (l : list (ptr A)) : list A :=
  flat_map (fun p => match p with Some v => [v] | None => [] end) l.

(** The first application named [name]; failing that, the last one flagged
    default; failing that, the zero application. *)
Definition GetApp_spec (applications : list Application.t) (name : string)
  : Application.t :=
  match find (fun app => Application.Name app =? name) applications with
  | Some app => app
  | None =>
      match find Application.Default (rev applications) with
      | Some app => app
      | None => Application.zero
      end
  end.

(** The first dashboard of the list with the requested group-kind; failing
    that, the fallback dashboard. *)
Definition GetDashBoard_spec (a : Application.t) (groupKind : string)
  : ptr Dashboard.t :=
  match find (fun d => Dashboard.GroupKind d =? groupKind)
             (pointees (Application.Dashboards a)) with
  | Some d => Some d
  | None => Application.DefaultDashboard a
  end.

(** The first row of the list with the requested name, or nil. *)
Definition GetRow_spec (d : Dashboard.t) (name : string) : ptr Row.t :=
  find (fun r => Row.Name r =? name) (pointees (Dashboard.Rows d)).

(** The first graph of the list with the requested name, or nil. *)
Definition GetGraph_spec (r : Row.t) (name : string) : ptr Graph.t :=
  find (fun g => Graph.Name g =? name) (pointees (Row.Graphs r)).

(** A front-to-back scan that stops at the first entry satisfying [hit]
    meets a nil entry before it stops. *)
Fixpoint scan_meets_nil {A : Type} (hit : A -> bool) (l : list (ptr A)) : bool :=
  match l with
  | [] => false
  | None :: _ => true
  | Some v :: rest => if hit v then false else scan_meets_nil hit rest
  end.

(** What a scan over [l] that stops at the first [hit] comes to: a panic
    when it meets a nil entry first, else the first hit, else [fallback]. *)
Definition scan_result {A : Type} (hit : A -> bool) (l : list (ptr A))
    (fallback : ptr A) : outcome (ptr A) :=
  if scan_meets_nil hit l then Panic
  else Ret (match find hit (pointees l) with
            | Some v => Some v
            | None => fallback
            end).

(** ** Sample data

    The tree of the package's test document (query expressions left
    out), a few trees with a nil entry, and stand-ins for the three
    libraries, each with one fixed behaviour, to run [LoadConfigs] on. *)

Module Sample.

Definition graph (name title metricName : string) : Graph.t :=
  {| Graph.Name := name; Graph.Title := title; Graph.Description := "";
     Graph.GraphType := "line"; Graph.MetricName := metricName;
     Graph.ColorSchemes := []; Graph.Thresholds := [];
     Graph.QueryExpression := ""; Graph.YAxisUnit := "";
     Graph.ValueRounding := 0%Z |}.

Definition row (name title : string) (graphs : list (ptr Graph.t)) : Row.t :=
  {| Row.Name := name; Row.Title := title; Row.Tab := "GoldenSignal";
     Row.Graphs := graphs |}.

Definition dashboard (groupKind : string) (rows : list (ptr Row.t)) : Dashboard.t :=
  {| Dashboard.Name := ""; Dashboard.GroupKind := groupKind;
     Dashboard.RefreshRate := ""; Dashboard.Tabs := ["GoldenSignal"];
     Dashboard.Rows := rows; Dashboard.ProviderType := "";
     Dashboard.Intervals := ["1h"; "2h"; "6h"; "12h"; "24h"] |}.

Definition http_200_latency : Graph.t :=
  graph "http_200_latency" "Latency" "pod_template_hash".

Definition httplatency : Row.t :=
  row "httplatency" "HTTP Latency" [Some http_200_latency].

Definition httperrortate : Row.t :=
  row "httperrortate" "HTTP Error Rate"
      [Some (graph "http_error_rate_500" "HTTP Error 500" "pod_template_hash");
       Some (graph "http_error_rate_400" "HTTP Error 400" "pod_template_hash")].

Definition deployment : Dashboard.t :=
  dashboard "deployment" [Some httplatency; Some httperrortate].

Definition pod : Dashboard.t :=
  dashboard "pod"
    [Some (row "container" "Containers"
             [Some (graph "container_cpu_line" "CPU" "container")])].

Definition demo_app : Application.t :=
  {| Application.Name := "demo-app-ai-ops"; Application.Default := false;
     Application.DefaultDashboard := nil_ptr;
     Application.Dashboards := [Some deployment] |}.

Definition default_app : Application.t :=
  {| Application.Name := "default"; Application.Default := true;
     Application.DefaultDashboard := nil_ptr;
     Application.Dashboards := [Some pod] |}.

Definition prometheus : MetricsConfigProvider.t unit :=
  {| MetricsConfigProvider.Applications := [demo_app; default_app];
     MetricsConfigProvider.Provider :=
       {| provider.Name := "default";
          provider.Address :=
            "http://prometheus-service.monitoring.svc.cluster.local:8080";
          provider.Default := true;
          provider.TLSConfig := tt |} |}.

Definition conf : O11yConfig.t unit :=
  {| O11yConfig.Prometheus := Some prometheus; O11yConfig.Wavefront := nil_ptr |}.

(** A provider with two applications flagged default. *)
Definition two_defaults : MetricsConfigProvider.t unit :=
  {| MetricsConfigProvider.Applications :=
       [ {| Application.Name := "first"; Application.Default := true;
            Application.DefaultDashboard := nil_ptr; Application.Dashboards := [] |};
         demo_app;
         {| Application.Name := "second"; Application.Default := true;
            Application.DefaultDashboard := nil_ptr; Application.Dashboards := [] |} ];
     MetricsConfigProvider.Provider := MetricsConfigProvider.Provider prometheus |}.

(** A provider with no application at all. *)
Definition no_applications : MetricsConfigProvider.t unit :=
  {| MetricsConfigProvider.Applications := [];
     MetricsConfigProvider.Provider := MetricsConfigProvider.Provider prometheus |}.

(** Trees with a nil entry, the shape a [null] in a list of the document
    decodes to. *)

Definition row_nil_graph : Row.t := row "r" "R" [nil_ptr].

Definition dashboard_nil_row : Dashboard.t := dashboard "deployment" [nil_ptr].

Definition app_nil_dashboard : Application.t :=
  {| Application.Name := "a"; Application.Default := false;
     Application.DefaultDashboard := nil_ptr;
     Application.Dashboards := [nil_ptr] |}.

(** A dashboard with no group-kind, behind a nil entry and not. *)

Definition unset_kind : Dashboard.t := dashboard "" [].

Definition app_unset_kind : Application.t :=
  {| Application.Name := "b"; Application.Default := false;
     Application.DefaultDashboard := Some pod;
     Application.Dashboards := [Some deployment; Some unset_kind; Some (dashboard "" [Some httplatency])] |}.

Definition app_nil_then_unset_kind : Application.t :=
  {| Application.Name := "c"; Application.Default := false;
     Application.DefaultDashboard := Some pod;
     Application.Dashboards := [nil_ptr; Some unset_kind] |}.

(** *** Stand-ins for the libraries

    - [json_parse] accepts what starts with an opening brace and rejects
      the rest, as encoding/json rejects the bytes [invalid json] of the
      package's tests.
    - [decode] writes the tree of [document] into [conf], whatever it is
      handed.
    - viper's state is the document it was given.  [overlay] looks up one
      variable, [PROMETHEUS__PROVIDER__DEFAULT]: unset, [conf] stays; set
      to [true] or [false], the provider's default flag takes that value;
      set to anything else, it fails, as a value that does not parse as
      a bool does. *)

(** A document, written with apostrophes for the double quotes. *)
Definition json (s : string) : list Byte.byte :=
  map (fun b => match b with Byte.x27 => Byte.x22 | _ => b end)
      (list_byte_of_string s).

Definition document : list Byte.byte :=
  json "{'prometheus':{'provider':{'name':'default','address':'http://prometheus:9090','default':true}}}".

Definition document_conf : O11yConfig.t unit :=
  {| O11yConfig.Prometheus :=
       Some {| MetricsConfigProvider.Applications := [];
               MetricsConfigProvider.Provider :=
                 {| provider.Name := "default";
                    provider.Address := "http://prometheus:9090";
                    provider.Default := true;
                    provider.TLSConfig := tt |} |};
     O11yConfig.Wavefront := nil_ptr |}.

Definition invalid_json : list Byte.byte := list_byte_of_string "invalid json".

Definition json_parse (data : list Byte.byte) : string + unit :=
  match data with
  | Byte.x7b :: _ => inr tt
  | _ => inl "invalid character looking for beginning of value"
  end.

Definition decode (_ : mapstructure.DecoderConfig) (_ : unit)
    (_ : O11yConfig.t unit) : O11yConfig.t unit * option string :=
  (document_conf, None).

Definition set_Provider_Default (b : bool) (c : O11yConfig.t unit) : O11yConfig.t unit :=
  match O11yConfig.Prometheus c with
  | None => c
  | Some p =>
      let pr := MetricsConfigProvider.Provider p in
      {| O11yConfig.Prometheus :=
           Some {| MetricsConfigProvider.Applications := MetricsConfigProvider.Applications p;
                   MetricsConfigProvider.Provider :=
                     {| provider.Name := provider.Name pr;
                        provider.Address := provider.Address pr;
                        provider.Default := b;
                        provider.TLSConfig := provider.TLSConfig pr |} |};
         O11yConfig.Wavefront := O11yConfig.Wavefront c |}
  end.

Definition overlay (environ : Environ) (c : O11yConfig.t unit)
    (_ : list Byte.byte) : O11yConfig.t unit * option string :=
  match environ "PROMETHEUS__PROVIDER__DEFAULT" with
  | None => (c, None)
  | Some v =>
      if v =? "true" then (set_Provider_Default true c, None)
      else if v =? "false" then (set_Provider_Default false c, None)
      else (c, Some "cannot parse as bool")
  end.

Definition libraries : Libraries unit string unit (list Byte.byte) :=
  {| json_Unmarshal := json_parse;
     mapstructure_NewDecoder := fun _ => None;
     Decoder_Decode := decode;
     viper_SetConfigType := fun _ v => v;
     viper_AutomaticEnv := fun v => v;
     viper_SetEnvKeyReplacer := fun _ v => v;
     viper_ReadConfig := fun data _ => (data, None);
     viper_Unmarshal := overlay |}.

Definition no_environ : Environ := fun _ => None.

(** The environment with [PROMETHEUS__PROVIDER__DEFAULT=notabool]. *)
Definition bad_environ : Environ :=
  fun k => if k =? "PROMETHEUS__PROVIDER__DEFAULT" then Some "notabool" else None.

End Sample.

(** ** Lookups in sequence, and viper's set-up

    [lookup_dashboard] is the call sequence of [TestApplication_GetDashBoard]:
    [app := p.GetApp(appName)], then [app.GetDashBoard(groupKind)] through
    the pointer, which Go dereferences for a value receiver. *)

Section Sequences.
Variable config_TLSConfig : Type.

Definition lookup_dashboard (p : ptr (MetricsConfigProvider.t config_TLSConfig))
    (appName groupKind : string) : outcome (ptr Dashboard.t) :=
  app <- MetricsConfigProvider.GetApp p appName ;;
  a <- deref app ;;
  Application.GetDashBoard a groupKind.

End Sequences.

Section Viper_setup.
Variable config_TLSConfig : Type.
Variables error JSONData Viper : Type.
Variable L : Libraries config_TLSConfig error JSONData Viper.

(** Lines 151 to 153 of [LoadConfigs]: the three settings, in order. *)
Definition configure_viper (viper : Viper) : Viper :=
  viper_SetEnvKeyReplacer L (".", "__")
    (viper_AutomaticEnv L (viper_SetConfigType L "json" viper)).

End Viper_setup.

(** * Properties *)

(** ** GetApp *)

Section GetApp_facts.
Variable config_TLSConfig : Type.

Lemma find_snoc (A : Type) (f : A -> bool) (l : list A) (x : A) :
  find f (l ++ [x]) =
  match find f l with
  | Some y => Some y
  | None => if f x then Some x else None
  end.
Proof.
  induction l as [|y l IH]; simpl.
  - reflexivity.
  - destruct (f y); [reflexivity | exact IH].
Qed.

(** The loop, whatever [defaultApp] holds when it starts. *)
Lemma range_Applications_eq (applications : list Application.t) (name : string) :
  forall defaultApp,
    MetricsConfigProvider.range_Applications applications name defaultApp =
    match find (fun app => Application.Name app =? name) applications with
    | Some app => app
    | None =>
        match find Application.Default (rev applications) with
        | Some app => app
        | None => defaultApp
        end
    end.
Proof.
  induction applications as [|app rest IH]; intros defaultApp; simpl.
  - reflexivity.
  - destruct (Application.Name app =? name); [reflexivity|].
    rewrite IH, find_snoc.
    destruct (find _ rest); [reflexivity|].
    destruct (find Application.Default (rev rest)); [reflexivity|].
    destruct (Application.Default app); reflexivity.
Qed.

(** C1. On every provider and every requested name, [GetApp] returns a
    non-nil pointer to: the first application of the list whose name is the
    requested one (nothing after it is looked at); when no name matches, the
    LAST application of the list flagged default; and when none is flagged
    either, the zero-valued [Application]. *)
Theorem GetApp_first_match_else_last_default
    (p : MetricsConfigProvider.t config_TLSConfig) (name : string) :
  MetricsConfigProvider.GetApp (Some p) name =
  Ret (Some (GetApp_spec (MetricsConfigProvider.Applications p) name)).
Proof.
  unfold MetricsConfigProvider.GetApp, GetApp_spec; simpl.
  now rewrite range_Applications_eq.
Qed.

End GetApp_facts.

(** The lookups of [TestMetricsConfigProvider_GetApp], then two providers
    the tests do not cover. *)
Example GetApp_existing_app :
  MetricsConfigProvider.GetApp (Some Sample.prometheus) "demo-app-ai-ops"
  = Ret (Some Sample.demo_app).
Proof. reflexivity. Qed.

Example GetApp_non_existing_app_returns_default :
  MetricsConfigProvider.GetApp (Some Sample.prometheus) "non-existing-app"
  = Ret (Some Sample.default_app).
Proof. reflexivity. Qed.

Example GetApp_default_app :
  MetricsConfigProvider.GetApp (Some Sample.prometheus) "default"
  = Ret (Some Sample.default_app).
Proof. reflexivity. Qed.

Example GetApp_last_default_wins :
  exists app,
    MetricsConfigProvider.GetApp (Some Sample.two_defaults) "nonexistent" = Ret (Some app)
    /\ Application.Name app = "second".
Proof. eexists; split; reflexivity. Qed.

Example GetApp_match_after_a_default :
  MetricsConfigProvider.GetApp (Some Sample.two_defaults) "demo-app-ai-ops"
  = Ret (Some Sample.demo_app).
Proof. reflexivity. Qed.

Example GetApp_zero_application :
  MetricsConfigProvider.GetApp (Some Sample.no_applications) "nonexistent"
  = Ret (Some Application.zero).
Proof. reflexivity. Qed.

(** ** The three scans over pointer lists *)

Ltac scan_step IH :=
  match goal with
  | |- context [if ?c then _ else _] => destruct c; [reflexivity | exact IH]
  end.

Lemma range_Graphs_scan (graphs : list (ptr Graph.t)) (name : string) :
  Row.range_Graphs graphs name =
  scan_result (fun g => Graph.Name g =? name) graphs nil_ptr.
Proof.
  unfold scan_result.
  induction graphs as [|[g|] rest IH]; simpl; try reflexivity.
  scan_step IH.
Qed.

Lemma range_Rows_scan (rows : list (ptr Row.t)) (name : string) :
  Dashboard.range_Rows rows name =
  scan_result (fun r => Row.Name r =? name) rows nil_ptr.
Proof.
  unfold scan_result.
  induction rows as [|[r|] rest IH]; simpl; try reflexivity.
  scan_step IH.
Qed.

Lemma range_Dashboards_scan (dashboards : list (ptr Dashboard.t))
    (groupKind : string) (fallback : ptr Dashboard.t) :
  Application.range_Dashboards dashboards groupKind fallback =
  scan_result (fun d => Dashboard.GroupKind d =? groupKind) dashboards fallback.
Proof.
  unfold scan_result.
  induction dashboards as [|[d|] rest IH]; simpl; try reflexivity.
  scan_step IH.
Qed.

Lemma scan_result_safe (A : Type) (hit : A -> bool) (l : list (ptr A))
    (fallback : ptr A) :
  scan_meets_nil hit l = false ->
  scan_result hit l fallback =
  Ret (match find hit (pointees l) with Some v => Some v | None => fallback end).
Proof. unfold scan_result; intros ->; reflexivity. Qed.

(** The condition is exact: a scan that meets a nil entry panics. *)
Lemma scan_result_nil (A : Type) (hit : A -> bool) (l : list (ptr A))
    (fallback : ptr A) :
  scan_meets_nil hit l = true -> scan_result hit l fallback = Panic.
Proof. unfold scan_result; intros ->; reflexivity. Qed.

(** A list with no nil entry is scanned safely, whatever is looked for. *)
Lemma scan_without_nil (A : Type) (hit : A -> bool) (l : list (ptr A)) :
  ~ In nil_ptr l -> scan_meets_nil hit l = false.
Proof.
  induction l as [|[v|] rest IH]; simpl; intros Hnil.
  - reflexivity.
  - destruct (hit v); [reflexivity|]. apply IH. intros H. apply Hnil. now right.
  - exfalso. apply Hnil. now left.
Qed.

Lemma find_or_nil (A : Type) (o : option A) :
  match o with Some v => Some v | None => nil_ptr end = o.
Proof. destruct o; reflexivity. Qed.

(** ** GetDashBoard *)

(** C5, as amended.  On every application and every requested group-kind
    for which the scan of the dashboard list meets no nil entry before it
    stops, [GetDashBoard] returns the first dashboard of the list whose
    group-kind is the requested one and, when none matches, the
    application's fallback dashboard (nil when unset). *)
Theorem GetDashBoard_first_match_or_fallback
    (a : Application.t) (groupKind : string) :
  scan_meets_nil (fun d => Dashboard.GroupKind d =? groupKind)
                 (Application.Dashboards a) = false ->
  Application.GetDashBoard a groupKind = Ret (GetDashBoard_spec a groupKind).
Proof.
  intros Hsafe. unfold Application.GetDashBoard, GetDashBoard_spec.
  rewrite range_Dashboards_scan. now apply scan_result_safe.
Qed.

(** C5, witness: the two lookups of the package's test, on the application
    [demo-app-ai-ops], which has no fallback dashboard. *)
Lemma GetDashBoard_first_match_or_fallback_witness :
  Application.GetDashBoard Sample.demo_app "deployment" = Ret (Some Sample.deployment)
  /\ Application.GetDashBoard Sample.demo_app "non-existent" = Ret nil_ptr.
Proof.
  split.
  - exact (GetDashBoard_first_match_or_fallback Sample.demo_app "deployment" eq_refl).
  - exact (GetDashBoard_first_match_or_fallback Sample.demo_app "non-existent" eq_refl).
Defined.

(** C5, as stated, fails: on an application whose dashboard list is one nil
    entry and whose fallback is unset, nothing matches [missing-kind], so
    the fallback (nil) is what was promised; the scan dereferences the nil
    entry and panics. *)
Lemma GetDashBoard_nil_entry_panics :
  Application.GetDashBoard Sample.app_nil_dashboard "missing-kind" = Panic
  /\ GetDashBoard_spec Sample.app_nil_dashboard "missing-kind" = nil_ptr
  /\ Application.GetDashBoard Sample.app_nil_dashboard "missing-kind"
     <> Ret (GetDashBoard_spec Sample.app_nil_dashboard "missing-kind").
Proof. split; [reflexivity | split; [reflexivity | discriminate]]. Qed.

(** C9, as amended.  The empty string is a group-kind like any other: on an
    application whose list holds a dashboard with an empty group-kind, [d]
    being the first such, and no nil entry ahead of it, [GetDashBoard]
    with the empty string returns [d], whatever the fallback is. *)
Theorem GetDashBoard_empty_groupKind (a : Application.t) (d : Dashboard.t) :
  scan_meets_nil (fun d => Dashboard.GroupKind d =? "")
                 (Application.Dashboards a) = false ->
  find (fun d => Dashboard.GroupKind d =? "")
       (pointees (Application.Dashboards a)) = Some d ->
  Application.GetDashBoard a "" = Ret (Some d)
  /\ Dashboard.GroupKind d = "".
Proof.
  intros Hsafe Hfind. split.
  - unfold Application.GetDashBoard.
    rewrite range_Dashboards_scan, scan_result_safe by assumption.
    now rewrite Hfind.
  - apply find_some in Hfind. now apply String.eqb_eq.
Qed.

(** C9, witness: three dashboards, the second and third with no
    group-kind, and a fallback that is set. *)
Lemma GetDashBoard_empty_groupKind_witness :
  Application.GetDashBoard Sample.app_unset_kind "" = Ret (Some Sample.unset_kind)
  /\ Dashboard.GroupKind Sample.unset_kind = "".
Proof.
  exact (GetDashBoard_empty_groupKind Sample.app_unset_kind eq_refl eq_refl).
Defined.

(** C9, as stated, fails: with a nil entry ahead of the dashboard that has
    no group-kind, that dashboard is the first such of the list, and the
    call panics instead of returning it. *)
Lemma GetDashBoard_empty_groupKind_behind_nil :
  find (fun d => Dashboard.GroupKind d =? "")
       (pointees (Application.Dashboards Sample.app_nil_then_unset_kind))
    = Some Sample.unset_kind
  /\ Application.GetDashBoard Sample.app_nil_then_unset_kind "" = Panic
  /\ Application.GetDashBoard Sample.app_nil_then_unset_kind ""
     <> Ret (Some Sample.unset_kind).
Proof. split; [reflexivity | split; [reflexivity | discriminate]]. Qed.

(** ** GetRow and GetGraph *)

(** C6, as amended.  On every dashboard and name for which the scan of the
    row list meets no nil entry before it stops, [GetRow] returns the first
    row of the list with that name, or nil when none has it; and likewise
    [GetGraph] on every row and name, over the graph list. *)
Theorem GetRow_GetGraph_first_match_or_nil
    (d : Dashboard.t) (rowName : string) (r : Row.t) (graphName : string) :
  scan_meets_nil (fun r => Row.Name r =? rowName) (Dashboard.Rows d) = false ->
  scan_meets_nil (fun g => Graph.Name g =? graphName) (Row.Graphs r) = false ->
  Dashboard.GetRow (Some d) rowName = Ret (GetRow_spec d rowName)
  /\ Row.GetGraph (Some r) graphName = Ret (GetGraph_spec r graphName).
Proof.
  intros Hrows Hgraphs. split.
  - unfold Dashboard.GetRow, GetRow_spec; simpl.
    rewrite range_Rows_scan, scan_result_safe by assumption.
    now rewrite find_or_nil.
  - unfold Row.GetGraph, GetGraph_spec; simpl.
    rewrite range_Graphs_scan, scan_result_safe by assumption.
    now rewrite find_or_nil.
Qed.

(** C6, witness: the lookups of the package's tests that find something. *)
Lemma GetRow_GetGraph_first_match_or_nil_witness :
  Dashboard.GetRow (Some Sample.deployment) "httplatency" = Ret (Some Sample.httplatency)
  /\ Row.GetGraph (Some Sample.httplatency) "http_200_latency"
     = Ret (Some Sample.http_200_latency).
Proof.
  exact (GetRow_GetGraph_first_match_or_nil
           Sample.deployment "httplatency" Sample.httplatency "http_200_latency"
           eq_refl eq_refl).
Defined.

(** C6, as stated, fails: a dashboard whose row list is one nil entry has
    no row named [missing], so nil was promised; the scan dereferences the
    nil entry and panics.  The same on a row whose graph list is one nil
    entry. *)
Lemma GetRow_GetGraph_nil_entry_panics :
  (GetRow_spec Sample.dashboard_nil_row "missing" = nil_ptr
   /\ Dashboard.GetRow (Some Sample.dashboard_nil_row) "missing" = Panic
   /\ Dashboard.GetRow (Some Sample.dashboard_nil_row) "missing"
      <> Ret (GetRow_spec Sample.dashboard_nil_row "missing"))
  /\ (GetGraph_spec Sample.row_nil_graph "missing" = nil_ptr
      /\ Row.GetGraph (Some Sample.row_nil_graph) "missing" = Panic
      /\ Row.GetGraph (Some Sample.row_nil_graph) "missing"
         <> Ret (GetGraph_spec Sample.row_nil_graph "missing")).
Proof.
  split; (split; [reflexivity | split; [reflexivity | discriminate]]).
Qed.

(** ** The four lookups together *)

Lemma find_None_iff (A : Type) (f : A -> bool) (l : list A) :
  find f l = None <-> (forall x, In x l -> f x = false).
Proof.
  split.
  - apply find_none.
  - induction l as [|y l IH]; simpl; intros H.
    + reflexivity.
    + rewrite (H y (or_introl eq_refl)). apply IH. intros x Hx. apply H. now right.
Qed.

Lemma no_hit_no_name (A : Type) (key : A -> string) (k : string) (l : list A) :
  find (fun v => key v =? k) l = None <-> (forall v, In v l -> key v <> k).
Proof.
  rewrite find_None_iff. split; intros H v Hv; specialize (H v Hv).
  - now apply String.eqb_neq.
  - now apply String.eqb_neq.
Qed.

Section Lookup_facts.
Variable config_TLSConfig : Type.

(** C8, as amended.  No lookup has an error result.  On a non-nil receiver
    ([GetDashBoard] takes its receiver by value) and a list whose scan
    meets no nil entry, each of the four returns a value.  Absence is told
    by that value: [GetRow] and [GetGraph] return nil exactly when no entry
    has the name; [GetDashBoard] returns nil exactly when no entry has the
    group-kind and the fallback is unset; [GetApp] never returns nil, and
    returns the zero application when no application has the name and none
    is flagged default.  So [GetApp] is the only one of the four that
    cannot return nil: each of the other three does on some input. *)
Theorem lookups_tell_absence_by_value
    (p : MetricsConfigProvider.t config_TLSConfig) (appName : string)
    (a : Application.t) (groupKind : string)
    (d : Dashboard.t) (rowName : string)
    (r : Row.t) (graphName : string) :
  scan_meets_nil (fun d => Dashboard.GroupKind d =? groupKind)
                 (Application.Dashboards a) = false ->
  scan_meets_nil (fun r => Row.Name r =? rowName) (Dashboard.Rows d) = false ->
  scan_meets_nil (fun g => Graph.Name g =? graphName) (Row.Graphs r) = false ->
  (exists app,
      MetricsConfigProvider.GetApp (Some p) appName = Ret (Some app)
      /\ ((forall x, In x (MetricsConfigProvider.Applications p) ->
             Application.Name x <> appName /\ Application.Default x = false) ->
          app = Application.zero))
  /\ (exists x,
         Application.GetDashBoard a groupKind = Ret x
         /\ (x = nil_ptr <->
             (forall v, In v (pointees (Application.Dashboards a)) ->
                Dashboard.GroupKind v <> groupKind)
             /\ Application.DefaultDashboard a = nil_ptr))
  /\ (exists x,
         Dashboard.GetRow (Some d) rowName = Ret x
         /\ (x = nil_ptr <->
             forall v, In v (pointees (Dashboard.Rows d)) -> Row.Name v <> rowName))
  /\ (exists x,
         Row.GetGraph (Some r) graphName = Ret x
         /\ (x = nil_ptr <->
             forall v, In v (pointees (Row.Graphs r)) -> Graph.Name v <> graphName))
  /\ (exists a' k, Application.GetDashBoard a' k = Ret nil_ptr)
  /\ (exists d' k, Dashboard.GetRow (Some d') k = Ret nil_ptr)
  /\ (exists r' k, Row.GetGraph (Some r') k = Ret nil_ptr).
Proof.
  intros Hdash Hrows Hgraphs.
  split; [|split; [|split; [|split; [|split; [|split]]]]].
  - eexists; split; [reflexivity|].
    intros Hnone. rewrite range_Applications_eq.
    assert (Hname : find (fun app => Application.Name app =? appName)
                      (MetricsConfigProvider.Applications p) = None).
    { apply no_hit_no_name. intros v Hv. now apply Hnone. }
    assert (Hdef : find Application.Default
                     (rev (MetricsConfigProvider.Applications p)) = None).
    { apply find_None_iff. intros v Hv. apply in_rev in Hv. now apply Hnone. }
    now rewrite Hname, Hdef.
  - eexists; split.
    + unfold Application.GetDashBoard.
      rewrite range_Dashboards_scan. now apply scan_result_safe.
    + rewrite <- no_hit_no_name.
      destruct (find _ (pointees (Application.Dashboards a))).
      * split; [discriminate | intros [Hno _]; discriminate].
      * split; [intros ->; now split | intros [_ ->]; reflexivity].
  - eexists; split.
    + unfold Dashboard.GetRow; simpl.
      rewrite range_Rows_scan. now apply scan_result_safe.
    + rewrite find_or_nil. apply no_hit_no_name.
  - eexists; split.
    + unfold Row.GetGraph; simpl.
      rewrite range_Graphs_scan. now apply scan_result_safe.
    + rewrite find_or_nil. apply no_hit_no_name.
  - exists Sample.demo_app, "non-existent". reflexivity.
  - exists Sample.deployment, "non-existent". reflexivity.
  - exists Sample.httplatency, "non-existent". reflexivity.
Qed.

End Lookup_facts.

(** C8, witness: the provider, application, dashboard and row of the test
    document, asked for what they hold. *)
Lemma lookups_tell_absence_by_value_witness :
  (exists app,
      MetricsConfigProvider.GetApp (Some Sample.prometheus) "default" = Ret (Some app))
  /\ (exists x, Application.GetDashBoard Sample.demo_app "deployment" = Ret x)
  /\ (exists x, Dashboard.GetRow (Some Sample.deployment) "httplatency" = Ret x)
  /\ (exists x, Row.GetGraph (Some Sample.httplatency) "http_200_latency" = Ret x).
Proof.
  destruct (lookups_tell_absence_by_value
              Sample.prometheus "default" Sample.demo_app "deployment"
              Sample.deployment "httplatency" Sample.httplatency "http_200_latency"
              eq_refl eq_refl eq_refl)
    as [[app [Happ _]] [[x1 [H1 _]] [[x2 [H2 _]] [[x3 [H3 _]] _]]]].
  split; [now exists app|].
  split; [now exists x1|].
  split; [now exists x2 | now exists x3].
Defined.

(** C8, as stated, fails on both counts.  [GetRow] and [GetGraph] return
    an explicit nil when nothing has the name (the two lookups of the
    package's tests for [non-existent]), so [GetDashBoard] is not the only
    lookup that can; and a lookup does fail on some inputs: called on a nil
    receiver, [GetApp], [GetRow] and [GetGraph] panic, [GetApp] for one on
    the Wavefront backend of the test document, which has none. *)
Lemma lookups_return_nil_and_panic :
  Dashboard.GetRow (Some Sample.deployment) "non-existent" = Ret nil_ptr
  /\ Row.GetGraph (Some Sample.httplatency) "non-existent" = Ret nil_ptr
  /\ MetricsConfigProvider.GetApp (O11yConfig.Wavefront Sample.conf) "default" = Panic
  /\ Dashboard.GetRow nil_ptr "httplatency" = Panic
  /\ Row.GetGraph nil_ptr "http_200_latency" = Panic.
Proof. repeat (split; [reflexivity|]). reflexivity. Qed.

(** ** LoadConfigs *)

Section Loading_facts.
Variable config_TLSConfig : Type.
Variables error JSONData Viper : Type.
Variable L : Libraries config_TLSConfig error JSONData Viper.

Let zero := O11yConfig.zero config_TLSConfig.
Let json_tag := {| mapstructure.TagName := "json" |}.

(** [LoadConfigs] is its first phase and, when that succeeds, its second,
    run on the configuration the first one filled. *)
Lemma LoadConfigs_phases (environ : Environ) (viper : Viper)
    (defaultConf : list Byte.byte) :
  LoadConfigs L environ viper defaultConf =
  match decodeDocument L defaultConf with
  | (conf, Some err) => ((conf, Some err), viper)
  | (conf, None) => applyOverrides L environ viper defaultConf conf
  end.
Proof.
  unfold LoadConfigs, decodeDocument, applyOverrides.
  destruct (json_Unmarshal L defaultConf) as [err|jsonData]; [reflexivity|].
  destruct (mapstructure_NewDecoder L _) as [err|]; [reflexivity|].
  destruct (Decoder_Decode L _ jsonData _) as [conf [err|]]; [reflexivity|].
  destruct (viper_ReadConfig L defaultConf _) as [viper' [err|]]; [reflexivity|].
  destruct (viper_Unmarshal L environ conf viper') as [conf' [err|]]; reflexivity.
Qed.

(** The decode phase fails with [err] exactly at one of its three exits. *)
Lemma decodeDocument_fails (defaultConf : list Byte.byte) (err : error) :
  snd (decodeDocument L defaultConf) = Some err <->
  json_Unmarshal L defaultConf = inl err
  \/ exists jsonData,
       json_Unmarshal L defaultConf = inr jsonData
       /\ (mapstructure_NewDecoder L json_tag = Some err
           \/ (mapstructure_NewDecoder L json_tag = None
               /\ snd (Decoder_Decode L json_tag jsonData zero) = Some err)).
Proof.
  unfold decodeDocument; fold zero; fold json_tag.
  destruct (json_Unmarshal L defaultConf) as [e|jsonData]; simpl.
  - split.
    + intros [= ->]. now left.
    + intros [[= ->]|[j [[=] _]]]. reflexivity.
  - destruct (mapstructure_NewDecoder L json_tag) as [e|]; simpl.
    + split.
      * intros [= ->]. right. exists jsonData. split; [reflexivity|now left].
      * intros [[=]|[j [[= <-] [[= ->]|[[=] _]]]]]. reflexivity.
    + split.
      * intros H. right. exists jsonData. split; [reflexivity|]. right. now split.
      * intros [[=]|[j [[= <-] [[=]|[_ H]]]]]. exact H.
Qed.

(** C7.  The document decode phase fails with an error [err] exactly when
    the generic parse of the bytes fails with [err], or the bytes parse and
    decoding the parsed data into the struct (creating the decoder, then
    running it) fails with [err]; and a failure of that phase is the
    failure of [LoadConfigs], with the very same [err]. *)
Theorem decode_phase_fails_exactly_and_error_surfaces
    (environ : Environ) (viper : Viper) (defaultConf : list Byte.byte)
    (err : error) :
  (snd (decodeDocument L defaultConf) = Some err <->
   json_Unmarshal L defaultConf = inl err
   \/ exists jsonData,
        json_Unmarshal L defaultConf = inr jsonData
        /\ (mapstructure_NewDecoder L json_tag = Some err
            \/ (mapstructure_NewDecoder L json_tag = None
                /\ snd (Decoder_Decode L json_tag jsonData zero) = Some err)))
  /\ (snd (decodeDocument L defaultConf) = Some err ->
      snd (fst (LoadConfigs L environ viper defaultConf)) = Some err).
Proof.
  split.
  - apply decodeDocument_fails.
  - rewrite LoadConfigs_phases.
    destruct (decodeDocument L defaultConf) as [conf [e|]]; simpl.
    + trivial.
    + discriminate.
Qed.

(** C10.  When the generic parse of the bytes fails, [LoadConfigs] returns
    the zero configuration, in which both backend pointers are nil,
    together with the error of the parse, and viper is left untouched. *)
Theorem LoadConfigs_parse_failure_returns_zero
    (environ : Environ) (viper : Viper) (defaultConf : list Byte.byte)
    (err : error) :
  json_Unmarshal L defaultConf = inl err ->
  LoadConfigs L environ viper defaultConf = ((zero, Some err), viper)
  /\ O11yConfig.Prometheus zero = nil_ptr
  /\ O11yConfig.Wavefront zero = nil_ptr.
Proof.
  intros Hparse. unfold LoadConfigs. rewrite Hparse. repeat split.
Qed.

(** C4, as amended.  When [LoadConfigs] fails, the configuration that comes
    with the error is the local [conf] as it stands at the failing exit:
    the zero configuration when the generic parse fails; what the decode
    phase left in it when that phase fails; and, when the overlay phase
    fails, what that phase returns for the configuration the decode phase
    filled. *)
Theorem LoadConfigs_failure_returns_conf_so_far
    (environ : Environ) (viper viper' : Viper) (defaultConf : list Byte.byte)
    (conf : O11yConfig.t config_TLSConfig) (err : error) :
  LoadConfigs L environ viper defaultConf = ((conf, Some err), viper') ->
  (json_Unmarshal L defaultConf = inl err /\ conf = zero)
  \/ (exists jsonData,
        json_Unmarshal L defaultConf = inr jsonData
        /\ decodeDocument L defaultConf = (conf, Some err))
  \/ (exists decoded,
        decodeDocument L defaultConf = (decoded, None)
        /\ applyOverrides L environ viper defaultConf decoded
           = ((conf, Some err), viper')).
Proof.
  rewrite LoadConfigs_phases.
  destruct (decodeDocument L defaultConf) as [c [e|]] eqn:Hdec.
  - intros [= -> -> _].
    unfold decodeDocument in Hdec.
    destruct (json_Unmarshal L defaultConf) as [e|jsonData].
    + left. now inversion Hdec.
    + right; left. now exists jsonData.
  - intros Hover. right; right. now exists c.
Qed.

End Loading_facts.

(** C10, witness: the bytes [invalid json] of [TestLoadConfigs_InvalidJSON],
    which the stand-in for encoding/json rejects. *)
Lemma LoadConfigs_parse_failure_returns_zero_witness :
  LoadConfigs Sample.libraries Sample.no_environ [] Sample.invalid_json
  = ((O11yConfig.zero unit,
      Some "invalid character looking for beginning of value"), [])
  /\ O11yConfig.Prometheus (O11yConfig.zero unit) = nil_ptr
  /\ O11yConfig.Wavefront (O11yConfig.zero unit) = nil_ptr.
Proof.
  exact (LoadConfigs_parse_failure_returns_zero
           Sample.libraries Sample.no_environ [] Sample.invalid_json eq_refl).
Defined.

(** C4, as stated, fails: with the bool variable of the environment set to
    [notabool], the decode phase fills the configuration, the overlay
    phase fails, and [LoadConfigs] returns the filled configuration next
    to the error. *)
Lemma LoadConfigs_overlay_failure_returns_filled_conf :
  LoadConfigs Sample.libraries Sample.bad_environ [] Sample.document
  = ((Sample.document_conf, Some "cannot parse as bool"), Sample.document)
  /\ Sample.document_conf <> O11yConfig.zero unit.
Proof. split; [reflexivity | discriminate]. Qed.

(** C4, witness: the same failing load; it is the overlay phase that
    failed. *)
Lemma LoadConfigs_failure_returns_conf_so_far_witness :
  (json_Unmarshal Sample.libraries Sample.document = inl "cannot parse as bool"
   /\ Sample.document_conf = O11yConfig.zero unit)
  \/ (exists jsonData,
        json_Unmarshal Sample.libraries Sample.document = inr jsonData
        /\ decodeDocument Sample.libraries Sample.document
           = (Sample.document_conf, Some "cannot parse as bool"))
  \/ (exists decoded,
        decodeDocument Sample.libraries Sample.document = (decoded, None)
        /\ applyOverrides Sample.libraries Sample.bad_environ [] Sample.document decoded
           = ((Sample.document_conf, Some "cannot parse as bool"), Sample.document)).
Proof.
  exact (LoadConfigs_failure_returns_conf_so_far
           Sample.libraries Sample.bad_environ [] Sample.document eq_refl).
Defined.

(** * Further properties of the lookups *)

(** ** GetApp *)

Lemma find_skip (A : Type) (f : A -> bool) (pre : list A) (v : A) (post : list A) :
  (forall y, In y pre -> f y = false) -> f v = true ->
  find f (pre ++ v :: post) = Some v.
Proof.
  induction pre as [|y pre IH]; simpl; intros Hpre Hv.
  - now rewrite Hv.
  - rewrite (Hpre y (or_introl eq_refl)). apply IH; [|exact Hv].
    intros z Hz. apply Hpre. now right.
Qed.

Lemma unique_key_prefix (A : Type) (key : A -> string)
    (pre : list A) (v : A) (post : list A) :
  NoDup (map key (pre ++ v :: post)) ->
  forall y, In y pre -> (key y =? key v) = false.
Proof.
  rewrite map_app; simpl. intros Hnd y Hy.
  apply NoDup_remove_2 in Hnd.
  apply String.eqb_neq. intros Heq. apply Hnd.
  apply in_or_app. left. rewrite <- Heq. now apply in_map.
Qed.

Section GetApp_more.
Variable config_TLSConfig : Type.

(** X1.  [GetApp] never makes an application up: what it returns is an
    entry of the provider's list or the zero application; and when the
    returned application does not carry the requested name, no entry of
    the list carries it, and the returned one is flagged default or is the
    zero application of a list in which nothing is flagged default. *)
Theorem GetApp_result_is_listed_or_zero
    (p : MetricsConfigProvider.t config_TLSConfig) (name : string) :
  exists app,
    MetricsConfigProvider.GetApp (Some p) name = Ret (Some app)
    /\ (In app (MetricsConfigProvider.Applications p) \/ app = Application.zero)
    /\ (Application.Name app = name
        \/ ((forall x, In x (MetricsConfigProvider.Applications p) ->
               Application.Name x <> name)
            /\ ((In app (MetricsConfigProvider.Applications p)
                 /\ Application.Default app = true)
                \/ (app = Application.zero
                    /\ forall x, In x (MetricsConfigProvider.Applications p) ->
                         Application.Default x = false)))).
Proof.
  eexists. split; [reflexivity|]. rewrite range_Applications_eq.
  destruct (find (fun app => Application.Name app =? name) _) as [a|] eqn:Hname.
  - apply find_some in Hname. destruct Hname as [Hin Heq].
    split; [now left | left; now apply String.eqb_eq].
  - assert (Hno : forall x, In x (MetricsConfigProvider.Applications p) ->
                    Application.Name x <> name).
    { now apply no_hit_no_name. }
    destruct (find Application.Default _) as [a|] eqn:Hdef.
    + apply find_some in Hdef. destruct Hdef as [Hin Hflag].
      apply in_rev in Hin.
      split; [now left | right; split; [exact Hno | left; now split]].
    + split; [now right|]. right. split; [exact Hno|]. right. split; [reflexivity|].
      intros x Hx. apply (find_none _ _ Hdef). now apply in_rev in Hx.
Qed.

(** X2.  In a provider whose application names are pairwise distinct,
    every application of the list is what [GetApp] returns for its own
    name, default flags or not. *)
Theorem GetApp_finds_each_application_by_its_name
    (p : MetricsConfigProvider.t config_TLSConfig) (app : Application.t) :
  NoDup (map Application.Name (MetricsConfigProvider.Applications p)) ->
  In app (MetricsConfigProvider.Applications p) ->
  MetricsConfigProvider.GetApp (Some p) (Application.Name app) = Ret (Some app).
Proof.
  intros Hnd Hin. unfold MetricsConfigProvider.GetApp; simpl.
  rewrite range_Applications_eq.
  apply in_split in Hin. destruct Hin as [pre [post Hsplit]].
  rewrite Hsplit in Hnd |- *.
  rewrite find_skip; [reflexivity | | apply String.eqb_refl].
  intros y Hy. exact (unique_key_prefix _ _ _ _ Hnd y Hy).
Qed.

(** X7.  The sequence [p.GetApp(appName).GetDashBoard(groupKind)] on a
    non-nil provider never fails at the application step: it is
    [GetDashBoard] on the application [GetApp] is described to return,
    so an unknown name falls back to the default application and then to
    that application's fallback dashboard. *)
Theorem lookup_dashboard_is_GetDashBoard_of_described_app
    (p : MetricsConfigProvider.t config_TLSConfig) (appName groupKind : string) :
  lookup_dashboard (Some p) appName groupKind =
  Application.GetDashBoard
    (GetApp_spec (MetricsConfigProvider.Applications p) appName) groupKind.
Proof.
  unfold lookup_dashboard, MetricsConfigProvider.GetApp, GetApp_spec; simpl.
  now rewrite range_Applications_eq.
Qed.


End GetApp_more.

(** X2, witness: the two applications of the test document. *)
Lemma GetApp_finds_each_application_by_its_name_witness :
  MetricsConfigProvider.GetApp (Some Sample.prometheus)
    (Application.Name Sample.default_app) = Ret (Some Sample.default_app).
Proof.
  apply GetApp_finds_each_application_by_its_name.
  - simpl. repeat constructor; simpl; intuition discriminate.
  - simpl. right; left; reflexivity.
Defined.


(** ** The scans, by the shape of the list *)

Section Scan_shapes.
Variable A : Type.
Variable hit : A -> bool.

Lemma scan_result_hit (v : A) (l : list (ptr A)) (fallback : ptr A) :
  hit v = true -> scan_result hit (Some v :: l) fallback = Ret (Some v).
Proof. intros H. unfold scan_result, pointees; simpl. now rewrite H. Qed.

Lemma scan_result_miss (v : A) (l : list (ptr A)) (fallback : ptr A) :
  hit v = false ->
  scan_result hit (Some v :: l) fallback = scan_result hit l fallback.
Proof. intros H. unfold scan_result, pointees; simpl. now rewrite H. Qed.

Lemma scan_result_skip (pre : list A) (rest : list (ptr A)) (fallback : ptr A) :
  (forall y, In y pre -> hit y = false) ->
  scan_result hit (map Some pre ++ rest)%list fallback = scan_result hit rest fallback.
Proof.
  induction pre as [|y pre IH]; simpl; intros Hpre.
  - reflexivity.
  - rewrite scan_result_miss by (apply Hpre; now left).
    apply IH. intros z Hz. apply Hpre. now right.
Qed.

(** Every pointer list has one of three shapes, and the shape decides what
    the scan comes to. *)
Lemma scan_shape (l : list (ptr A)) (fallback : ptr A) :
  (exists pre v post,
      l = (map Some pre ++ Some v :: post)%list
      /\ (forall y, In y pre -> hit y = false) /\ hit v = true
      /\ scan_result hit l fallback = Ret (Some v))
  \/ (exists all,
        l = map Some all /\ (forall y, In y all -> hit y = false)
        /\ scan_result hit l fallback = Ret fallback)
  \/ (exists pre post,
        l = (map Some pre ++ None :: post)%list
        /\ (forall y, In y pre -> hit y = false)
        /\ scan_result hit l fallback = Panic).
Proof.
  induction l as [|[v|] rest IH].
  - right; left. exists []. split; [reflexivity | split; [intros y [] | reflexivity]].
  - destruct (hit v) eqn:Hv.
    + left. exists [], v, rest.
      split; [reflexivity | split; [intros y [] | split; [exact Hv |]]].
      now apply scan_result_hit.
    + rewrite scan_result_miss by exact Hv.
      assert (Hcons : forall pre : list A,
                 (forall y, In y pre -> hit y = false) ->
                 forall y, In y (v :: pre) -> hit y = false).
      { intros pre Hpre y [<-|Hy]; [exact Hv | now apply Hpre]. }
      destruct IH as [[pre [w [post [-> [Hpre [Hw Hres]]]]]]
                     |[[all [-> [Hall Hres]]]
                      |[pre [post [-> [Hpre Hres]]]]]].
      * left. exists (v :: pre), w, post.
        split; [reflexivity | split; [now apply Hcons | split; assumption]].
      * right; left. exists (v :: all).
        split; [reflexivity | split; [now apply Hcons | assumption]].
      * right; right. exists (v :: pre), post.
        split; [reflexivity | split; [now apply Hcons | assumption]].
  - right; right. exists [], rest.
    split; [reflexivity | split; [intros y [] | reflexivity]].
Qed.

Lemma scan_result_panics_iff (l : list (ptr A)) (fallback : ptr A) :
  scan_result hit l fallback = Panic <->
  exists pre post,
    l = (map Some pre ++ None :: post)%list /\ (forall y, In y pre -> hit y = false).
Proof.
  split.
  - intros Hpanic.
    destruct (scan_shape l fallback)
      as [[pre [w [post [_ [_ [_ Hres]]]]]]
         |[[all [_ [_ Hres]]]
          |[pre [post [Hl [Hpre _]]]]]].
    + rewrite Hres in Hpanic. discriminate.
    + rewrite Hres in Hpanic. discriminate.
    + now exists pre, post.
  - intros [pre [post [-> Hpre]]]. now rewrite scan_result_skip.
Qed.

End Scan_shapes.

Lemma eqb_miss (A : Type) (key : A -> string) (k : string) (l : list A) :
  (forall y, In y l -> (key y =? k) = false) <-> (forall y, In y l -> key y <> k).
Proof.
  split; intros H y Hy; apply String.eqb_neq; now apply H.
Qed.

(** X3.  What [GetRow] does on a non-nil dashboard is decided by the first
    entry of the row list that is nil or has the name.  A row with the name,
    all entries ahead of it non-nil and named otherwise: that row is
    returned, whatever follows it, nil entries included.  No such entry at
    all: nil is returned, and then every entry is a non-nil row with
    another name.  A nil entry, all entries ahead of it non-nil and named
    otherwise: a panic.  [GetGraph] does the same on a row's graph list. *)
Theorem GetRow_GetGraph_by_list_shape
    (d : Dashboard.t) (rowName : string) (r : Row.t) (graphName : string) :
  ((exists pre v post,
       Dashboard.Rows d = (map Some pre ++ Some v :: post)%list
       /\ (forall y, In y pre -> Row.Name y <> rowName) /\ Row.Name v = rowName
       /\ Dashboard.GetRow (Some d) rowName = Ret (Some v))
   \/ (exists all,
         Dashboard.Rows d = map Some all
         /\ (forall y, In y all -> Row.Name y <> rowName)
         /\ Dashboard.GetRow (Some d) rowName = Ret nil_ptr)
   \/ (exists pre post,
         Dashboard.Rows d = (map Some pre ++ nil_ptr :: post)%list
         /\ (forall y, In y pre -> Row.Name y <> rowName)
         /\ Dashboard.GetRow (Some d) rowName = Panic))
  /\ ((exists pre v post,
          Row.Graphs r = (map Some pre ++ Some v :: post)%list
          /\ (forall y, In y pre -> Graph.Name y <> graphName)
          /\ Graph.Name v = graphName
          /\ Row.GetGraph (Some r) graphName = Ret (Some v))
      \/ (exists all,
            Row.Graphs r = map Some all
            /\ (forall y, In y all -> Graph.Name y <> graphName)
            /\ Row.GetGraph (Some r) graphName = Ret nil_ptr)
      \/ (exists pre post,
            Row.Graphs r = (map Some pre ++ nil_ptr :: post)%list
            /\ (forall y, In y pre -> Graph.Name y <> graphName)
            /\ Row.GetGraph (Some r) graphName = Panic)).
Proof.
  split.
  - unfold Dashboard.GetRow; simpl. rewrite range_Rows_scan.
    destruct (scan_shape (fun x => Row.Name x =? rowName) (Dashboard.Rows d) nil_ptr)
      as [[pre [w [post [Hl [Hpre [Hw Hres]]]]]]
         |[[all [Hl [Hall Hres]]]
          |[pre [post [Hl [Hpre Hres]]]]]].
    + left. exists pre, w, post. assert (Hne := proj1 (eqb_miss Row.Name _ _) Hpre). apply String.eqb_eq in Hw.
      now repeat split.
    + right; left. exists all. assert (Hne := proj1 (eqb_miss Row.Name _ _) Hall). now repeat split.
    + right; right. exists pre, post. assert (Hne := proj1 (eqb_miss Row.Name _ _) Hpre). now repeat split.
  - unfold Row.GetGraph; simpl. rewrite range_Graphs_scan.
    destruct (scan_shape (fun x => Graph.Name x =? graphName) (Row.Graphs r) nil_ptr)
      as [[pre [w [post [Hl [Hpre [Hw Hres]]]]]]
         |[[all [Hl [Hall Hres]]]
          |[pre [post [Hl [Hpre Hres]]]]]].
    + left. exists pre, w, post. assert (Hne := proj1 (eqb_miss Graph.Name _ _) Hpre). apply String.eqb_eq in Hw.
      now repeat split.
    + right; left. exists all. assert (Hne := proj1 (eqb_miss Graph.Name _ _) Hall). now repeat split.
    + right; right. exists pre, post. assert (Hne := proj1 (eqb_miss Graph.Name _ _) Hpre). now repeat split.
Qed.

(** X4.  [GetDashBoard] likewise.  A dashboard with the group-kind, all
    entries ahead of it non-nil and of other kinds: it is returned.  No nil
    entry and no dashboard of the kind: the fallback is returned as it is,
    nil or not, and its own group-kind is never looked at.  A nil entry
    with no dashboard of the kind ahead of it: a panic, fallback or not. *)
Theorem GetDashBoard_by_list_shape (a : Application.t) (groupKind : string) :
  (exists pre v post,
      Application.Dashboards a = (map Some pre ++ Some v :: post)%list
      /\ (forall y, In y pre -> Dashboard.GroupKind y <> groupKind)
      /\ Dashboard.GroupKind v = groupKind
      /\ Application.GetDashBoard a groupKind = Ret (Some v))
  \/ (exists all,
        Application.Dashboards a = map Some all
        /\ (forall y, In y all -> Dashboard.GroupKind y <> groupKind)
        /\ Application.GetDashBoard a groupKind = Ret (Application.DefaultDashboard a))
  \/ (exists pre post,
        Application.Dashboards a = (map Some pre ++ nil_ptr :: post)%list
        /\ (forall y, In y pre -> Dashboard.GroupKind y <> groupKind)
        /\ Application.GetDashBoard a groupKind = Panic).
Proof.
  unfold Application.GetDashBoard. rewrite range_Dashboards_scan.
  destruct (scan_shape (fun x => Dashboard.GroupKind x =? groupKind)
              (Application.Dashboards a) (Application.DefaultDashboard a))
    as [[pre [w [post [Hl [Hpre [Hw Hres]]]]]]
       |[[all [Hl [Hall Hres]]]
        |[pre [post [Hl [Hpre Hres]]]]]].
  - left. exists pre, w, post. assert (Hne := proj1 (eqb_miss Dashboard.GroupKind _ _) Hpre). apply String.eqb_eq in Hw.
    now repeat split.
  - right; left. exists all. assert (Hne := proj1 (eqb_miss Dashboard.GroupKind _ _) Hall). now repeat split.
  - right; right. exists pre, post. assert (Hne := proj1 (eqb_miss Dashboard.GroupKind _ _) Hpre). now repeat split.
Qed.

(** X5.  On a non-nil receiver, each of the three pointer-list lookups
    panics exactly when its list holds a nil entry with no matching entry
    and no other nil entry ahead of it. *)
Theorem lookups_panic_exactly_on_reached_nil
    (a : Application.t) (groupKind : string)
    (d : Dashboard.t) (rowName : string) (r : Row.t) (graphName : string) :
  (Application.GetDashBoard a groupKind = Panic <->
   exists pre post,
     Application.Dashboards a = (map Some pre ++ nil_ptr :: post)%list
     /\ forall y, In y pre -> Dashboard.GroupKind y <> groupKind)
  /\ (Dashboard.GetRow (Some d) rowName = Panic <->
      exists pre post,
        Dashboard.Rows d = (map Some pre ++ nil_ptr :: post)%list
        /\ forall y, In y pre -> Row.Name y <> rowName)
  /\ (Row.GetGraph (Some r) graphName = Panic <->
      exists pre post,
        Row.Graphs r = (map Some pre ++ nil_ptr :: post)%list
        /\ forall y, In y pre -> Graph.Name y <> graphName).
Proof.
  split; [|split].
  - unfold Application.GetDashBoard.
    rewrite range_Dashboards_scan, scan_result_panics_iff.
    split; intros [pre [post [Hl Hpre]]]; exists pre, post;
      (split; [exact Hl | first [exact (proj1 (eqb_miss Dashboard.GroupKind _ _) Hpre) | exact (proj2 (eqb_miss Dashboard.GroupKind _ _) Hpre)]]).
  - unfold Dashboard.GetRow; simpl.
    rewrite range_Rows_scan, scan_result_panics_iff.
    split; intros [pre [post [Hl Hpre]]]; exists pre, post;
      (split; [exact Hl | first [exact (proj1 (eqb_miss Row.Name _ _) Hpre) | exact (proj2 (eqb_miss Row.Name _ _) Hpre)]]).
  - unfold Row.GetGraph; simpl.
    rewrite range_Graphs_scan, scan_result_panics_iff.
    split; intros [pre [post [Hl Hpre]]]; exists pre, post;
      (split; [exact Hl | first [exact (proj1 (eqb_miss Graph.Name _ _) Hpre) | exact (proj2 (eqb_miss Graph.Name _ _) Hpre)]]).
Qed.

Lemma scan_finds_unique_key (A : Type) (key : A -> string)
    (all : list A) (v : A) (fallback : ptr A) :
  NoDup (map key all) -> In v all ->
  scan_result (fun x => key x =? key v) (map Some all) fallback = Ret (Some v).
Proof.
  intros Hnd Hin.
  apply in_split in Hin. destruct Hin as [pre [post ->]].
  rewrite map_app; simpl.
  rewrite scan_result_skip by (exact (unique_key_prefix _ _ _ _ Hnd)).
  apply scan_result_hit. apply String.eqb_refl.
Qed.

(** X6.  In a list with no nil entry and pairwise distinct keys, every
    entry is what the lookup returns for its own key: each dashboard of an
    application for its group-kind (the fallback is not used), each row of
    a dashboard and each graph of a row for its name. *)
Theorem lookups_find_each_entry_by_its_key
    (a : Application.t) (dashboards : list Dashboard.t) (dash : Dashboard.t)
    (d : Dashboard.t) (rows : list Row.t) (row : Row.t)
    (r : Row.t) (graphs : list Graph.t) (graph : Graph.t) :
  Application.Dashboards a = map Some dashboards ->
  NoDup (map Dashboard.GroupKind dashboards) -> In dash dashboards ->
  Dashboard.Rows d = map Some rows ->
  NoDup (map Row.Name rows) -> In row rows ->
  Row.Graphs r = map Some graphs ->
  NoDup (map Graph.Name graphs) -> In graph graphs ->
  Application.GetDashBoard a (Dashboard.GroupKind dash) = Ret (Some dash)
  /\ Dashboard.GetRow (Some d) (Row.Name row) = Ret (Some row)
  /\ Row.GetGraph (Some r) (Graph.Name graph) = Ret (Some graph).
Proof.
  intros Ha Hnd1 Hin1 Hd Hnd2 Hin2 Hr Hnd3 Hin3. split; [|split].
  - unfold Application.GetDashBoard.
    rewrite range_Dashboards_scan, Ha. now apply scan_finds_unique_key.
  - unfold Dashboard.GetRow; simpl.
    rewrite range_Rows_scan, Hd. now apply scan_finds_unique_key.
  - unfold Row.GetGraph; simpl.
    rewrite range_Graphs_scan, Hr. now apply scan_finds_unique_key.
Qed.

(** X6, witness: the second row of the test document's first dashboard
    and the second graph of that row. *)
Lemma lookups_find_each_entry_by_its_key_witness :
  Application.GetDashBoard Sample.demo_app "deployment" = Ret (Some Sample.deployment)
  /\ Dashboard.GetRow (Some Sample.deployment) "httperrortate"
     = Ret (Some Sample.httperrortate)
  /\ Row.GetGraph (Some Sample.httperrortate) "http_error_rate_400"
     = Ret (Some (Sample.graph "http_error_rate_400" "HTTP Error 400" "pod_template_hash")).
Proof.
  apply (@lookups_find_each_entry_by_its_key
           Sample.demo_app [Sample.deployment] Sample.deployment
           Sample.deployment [Sample.httplatency; Sample.httperrortate]
           Sample.httperrortate
           Sample.httperrortate
           [Sample.graph "http_error_rate_500" "HTTP Error 500" "pod_template_hash";
            Sample.graph "http_error_rate_400" "HTTP Error 400" "pod_template_hash"]
           (Sample.graph "http_error_rate_400" "HTTP Error 400" "pod_template_hash"));
    try reflexivity;
    try (simpl; repeat constructor; simpl; intuition discriminate);
    simpl; auto.
Defined.

(** * Further properties of LoadConfigs *)

Section Loading_more.
Variable config_TLSConfig : Type.
Variables error JSONData Viper : Type.
Variable L : Libraries config_TLSConfig error JSONData Viper.

Let zero := O11yConfig.zero config_TLSConfig.
Let json_tag := {| mapstructure.TagName := "json" |}.

Lemma applyOverrides_eq (environ : Environ) (viper : Viper)
    (defaultConf : list Byte.byte) (conf : O11yConfig.t config_TLSConfig) :
  applyOverrides L environ viper defaultConf conf =
  match viper_ReadConfig L defaultConf (configure_viper L viper) with
  | (viper', Some err) => ((conf, Some err), viper')
  | (viper', None) => (viper_Unmarshal L environ conf viper', viper')
  end.
Proof.
  unfold applyOverrides, configure_viper.
  destruct (viper_ReadConfig L defaultConf _) as [viper' [err|]]; reflexivity.
Qed.

(** X9.  [LoadConfigs] succeeds exactly when all five fallible calls
    succeed, and then: the decoder ran once, with the json tag, on the
    parsed data and the zero configuration; viper read the same bytes
    after its three settings; the returned configuration is what
    [viper.Unmarshal] made of the decoded one under the environment; and
    the viper left behind is the one that read the document. *)
Theorem LoadConfigs_succeeds_exactly
    (environ : Environ) (viper viper' : Viper) (defaultConf : list Byte.byte)
    (conf : O11yConfig.t config_TLSConfig) :
  LoadConfigs L environ viper defaultConf = ((conf, None), viper') <->
  exists jsonData decoded,
    json_Unmarshal L defaultConf = inr jsonData
    /\ mapstructure_NewDecoder L json_tag = None
    /\ Decoder_Decode L json_tag jsonData zero = (decoded, None)
    /\ viper_ReadConfig L defaultConf (configure_viper L viper) = (viper', None)
    /\ viper_Unmarshal L environ decoded viper' = (conf, None).
Proof.
  rewrite LoadConfigs_phases. unfold decodeDocument. fold zero; fold json_tag.
  split.
  - destruct (json_Unmarshal L defaultConf) as [e|jsonData]; [discriminate|].
    destruct (mapstructure_NewDecoder L json_tag) as [e|]; [discriminate|].
    destruct (Decoder_Decode L json_tag jsonData zero) as [decoded [e|]] eqn:Hdec;
      [discriminate|].
    rewrite applyOverrides_eq.
    destruct (viper_ReadConfig L defaultConf _) as [v1 [e|]] eqn:Hread;
      [discriminate|].
    destruct (viper_Unmarshal L environ decoded v1) as [c [e|]] eqn:Hun;
      [discriminate|].
    intros [= -> ->]. exists jsonData, decoded. now repeat split.
  - intros [jsonData [decoded [Hparse [Hnew [Hdec [Hread Hun]]]]]].
    rewrite Hparse, Hnew, Hdec, applyOverrides_eq, Hread, Hun. reflexivity.
Qed.

(** X10.  A load that fails in its decode phase does not depend on the
    environment and does not touch viper: whatever the environment and
    the state of viper, it returns what the decode phase returned, and
    viper as it was. *)
Theorem LoadConfigs_decode_failure_is_local
    (defaultConf : list Byte.byte) (err : error) :
  snd (decodeDocument L defaultConf) = Some err ->
  forall (environ : Environ) (viper : Viper),
    LoadConfigs L environ viper defaultConf = (decodeDocument L defaultConf, viper).
Proof.
  intros Hfail environ viper. rewrite LoadConfigs_phases.
  destruct (decodeDocument L defaultConf) as [conf [e|]]; [reflexivity|].
  discriminate.
Qed.

(** X11.  After a decode phase that succeeded with [decoded], the load
    fails with [err] exactly in two ways.  Either viper fails with [err] to
    read the document: then the configuration returned is [decoded],
    unchanged.  Or viper reads it and [viper.Unmarshal] fails with [err]:
    then the configuration returned is whatever that call left of
    [decoded].  The error is the library's, as it is. *)
Theorem LoadConfigs_overlay_failure
    (environ : Environ) (viper viper' : Viper) (defaultConf : list Byte.byte)
    (decoded conf : O11yConfig.t config_TLSConfig) (err : error) :
  decodeDocument L defaultConf = (decoded, None) ->
  (LoadConfigs L environ viper defaultConf = ((conf, Some err), viper') <->
   (viper_ReadConfig L defaultConf (configure_viper L viper) = (viper', Some err)
    /\ conf = decoded)
   \/ (viper_ReadConfig L defaultConf (configure_viper L viper) = (viper', None)
       /\ viper_Unmarshal L environ decoded viper' = (conf, Some err))).
Proof.
  intros Hdec. rewrite LoadConfigs_phases, Hdec, applyOverrides_eq.
  destruct (viper_ReadConfig L defaultConf _) as [v1 [e|]].
  - split.
    + intros [= -> -> ->]. left. now split.
    + intros [[[= -> ->] ->]|[[=] _]]. reflexivity.
  - split.
    + intros H. right. injection H as Hun ->. now split.
    + intros [[[=] _]|[[= ->] Hun]]. now rewrite Hun.
Qed.

(** X12.  The configuration returned by a load whose generic parse failed
    cannot be looked into: [GetApp] on either of its backends panics, for
    every name. *)
Theorem lookup_after_parse_failure_panics
    (environ : Environ) (viper : Viper) (defaultConf : list Byte.byte)
    (err : error) (name : string) :
  json_Unmarshal L defaultConf = inl err ->
  let conf := fst (fst (LoadConfigs L environ viper defaultConf)) in
  MetricsConfigProvider.GetApp (O11yConfig.Prometheus conf) name = Panic
  /\ MetricsConfigProvider.GetApp (O11yConfig.Wavefront conf) name = Panic.
Proof.
  intros Hparse. unfold LoadConfigs. rewrite Hparse. simpl. now split.
Qed.

End Loading_more.

(** X10, witness: the bytes [invalid json], under two environments. *)
Lemma LoadConfigs_decode_failure_is_local_witness :
  LoadConfigs Sample.libraries Sample.bad_environ Sample.document Sample.invalid_json
  = (decodeDocument Sample.libraries Sample.invalid_json, Sample.document)
  /\ LoadConfigs Sample.libraries Sample.no_environ [] Sample.invalid_json
     = (decodeDocument Sample.libraries Sample.invalid_json, []).
Proof.
  split.
  - exact (@LoadConfigs_decode_failure_is_local _ _ _ _ Sample.libraries
             Sample.invalid_json _ eq_refl Sample.bad_environ Sample.document).
  - exact (@LoadConfigs_decode_failure_is_local _ _ _ _ Sample.libraries
             Sample.invalid_json _ eq_refl Sample.no_environ []).
Defined.

(** X11, witness: the sample document under the environment whose bool
    variable does not parse; the second way of failing. *)
Lemma LoadConfigs_overlay_failure_witness :
  LoadConfigs Sample.libraries Sample.bad_environ [] Sample.document
  = ((Sample.document_conf, Some "cannot parse as bool"), Sample.document)
  <->
  (viper_ReadConfig Sample.libraries Sample.document
     (configure_viper Sample.libraries [])
   = (Sample.document, Some "cannot parse as bool")
   /\ Sample.document_conf = Sample.document_conf)
  \/ (viper_ReadConfig Sample.libraries Sample.document
        (configure_viper Sample.libraries [])
      = (Sample.document, None)
      /\ viper_Unmarshal Sample.libraries Sample.bad_environ
           Sample.document_conf Sample.document
         = (Sample.document_conf, Some "cannot parse as bool")).
Proof.
  exact (@LoadConfigs_overlay_failure _ _ _ _ Sample.libraries
           Sample.bad_environ [] Sample.document Sample.document
           Sample.document_conf Sample.document_conf "cannot parse as bool"
           eq_refl).
Defined.

(** X12, witness: the bytes [invalid json]. *)
Lemma lookup_after_parse_failure_panics_witness :
  MetricsConfigProvider.GetApp
    (O11yConfig.Prometheus
       (fst (fst (LoadConfigs Sample.libraries Sample.no_environ []
                    Sample.invalid_json)))) "default" = Panic
  /\ MetricsConfigProvider.GetApp
       (O11yConfig.Wavefront
          (fst (fst (LoadConfigs Sample.libraries Sample.no_environ []
                       Sample.invalid_json)))) "default" = Panic.
Proof.
  exact (@lookup_after_parse_failure_panics _ _ _ _ Sample.libraries
           Sample.no_environ [] Sample.invalid_json _ "default" eq_refl).
Defined.
